(** * Risk engine of the fake-account detection platform

    A shallow embedding of [risk_engine.py] (the scoring function
    [calculate_risk_score], the batch runner [analyze_batch_accounts] and
    the summary [get_risk_distribution]) together with the demo fixture of
    [data_generator.py], followed by the properties stated about them.

    Conventions of the embedding:
    - Python [int] is [Z]; Python [float] is the rational it denotes ([Q]),
      with the rounding of every float-producing operation written out;
    - [str] is [string] (the UTF-8 bytes of the source literals);
    - [datetime.now()] is an explicit argument: the reading of the clock;
    - exceptions are the [Raise] case of the [result] type. *)

From Stdlib Require Import ZArith QArith Qabs String List Lia DecimalString.
From stdpp Require Import gmap strings list fin_maps.

Local Open Scope Z_scope.

(** ** Exceptions *)

Inductive exception : Type :=
| ZeroDivisionError
| OverflowError
| KeyError (key : string).

Inductive result (A : Type) : Type :=
| Ok (a : A)
| Raise (e : exception).

Arguments Ok {A} a.
Arguments Raise {A} e.

#[global] Instance result_ret : MRet result := fun _ a => Ok a.

#[global] Instance result_bind : MBind result := fun _ _ f m =>
  match m with
  | Ok a => f a
  | Raise e => Raise e
  end.

#[global] Instance result_fmap : FMap result := fun _ _ f m =>
  match m with
  | Ok a => Ok (f a)
  | Raise e => Raise e
  end.

(** ** Numbers *)

(** [x < y] and [x > y] on floats, and between an [int] and a [float]:
    Python compares the exact values. *)
Definition Qltb (x y : Q) : bool := negb (Qle_bool y x).
Definition Qgtb (x y : Q) : bool := Qltb y x.

(** Nearest integer, ties to the even one. *)
Definition round_half_even (q : Q) : Z :=
  let n := Qnum q in
  let d := Z.pos (Qden q) in
  let f := n / d in
  match (2 * (n mod d) ?= d) with
  | Lt => f
  | Gt => f + 1
  | Eq => if Z.even f then f else f + 1
  end.

Definition pow2 (e : Z) : Q :=
  if 0 <=? e then inject_Z (2 ^ e) else (1 / inject_Z (2 ^ (- e)))%Q.

(** The exponent [e] with [2^e <= q < 2^(e+1)], for [q > 0]. *)
Definition floor_log2 (q : Q) : Z :=
  let e0 := Z.log2 (Qnum q) - Z.log2 (Z.pos (Qden q)) in
  if Qle_bool (pow2 e0) q then e0 else e0 - 1.

(** The binary64 value nearest to [q]: a 53-bit significand, ties to even,
    and below [2^-1022] the subnormals, multiples of [2^-1074].  The range
    has a top as well: a rounded value of [2^1024] or more is no float
    ([binary64_overflows]), and what happens then is the operation's
    business. *)
Definition round_binary64 (q : Q) : Q :=
  if Qeq_bool q 0 then 0%Q
  else
    let e := Z.max (floor_log2 (Qabs q) - 52) (-1074) in
    (inject_Z (round_half_even (q / pow2 e)) * pow2 e)%Q.

Definition binary64_overflows (x : Q) : bool :=
  Qle_bool (pow2 1024) (Qabs x).

(** [a / b] on two ints: true division, correctly rounded.  It raises
    [ZeroDivisionError] on a zero divisor and [OverflowError] ("integer
    division result too large for a float") when the rounded quotient is
    out of the range of floats. *)
Definition true_div (a b : Z) : result Q :=
  if b =? 0 then Raise ZeroDivisionError
  else
    let q := round_binary64 (inject_Z a / inject_Z b) in
    if binary64_overflows q then Raise OverflowError else Ok q.

(** The literal [0.1]. *)
Definition float_0_1 : Q := round_binary64 (1 # 10).

(** ** Strings *)

(** [f"{n}"] for an int. *)
Definition str_of_int (n : Z) : string := NilZero.string_of_int (Z.to_int n).

(** [f"{x:.1f}"]: one digit after the point, the exact value rounded
    half to even, the sign kept. *)
Definition format_1f (x : Q) : string :=
  let n := round_half_even (Qabs x * 10) in
  (if Qltb x 0 then "-" else "")
  +:+ str_of_int (n / 10) +:+ "." +:+ str_of_int (n mod 10).

(** ** Time *)

(** A naive [datetime], in microseconds, and a [timedelta], likewise. *)
Definition datetime : Type := Z.
Definition timedelta : Type := Z.

Definition microseconds_per_day : Z := 86400 * 1000000.

(** [timedelta(days=n)] *)
Definition timedelta_of_days (n : Z) : timedelta := n * microseconds_per_day.

(** [td.days]: a timedelta is normalised with [0 <= seconds < 86400], so
    its day count is the floor. *)
Definition days (td : timedelta) : Z := td / microseconds_per_day.

(** ** Data model *)

(** One account: the keys of the dicts built in [data_generator.py] and
    [app.py].  The three keys read with [account.get(key, default)] may
    be absent. *)
Record AccountRecord : Type := {
  account_id : string;
  account_type : string;
  created_date : datetime;
  followers : Z;
  following : Z;
  posts : Z;
  posts_per_day : Q;
  bio_length : option Z;
  has_profile_pic : option bool;
  verified : option bool;
  avg_likes_per_post : Z;
  messages_sent_per_day : Z;
  repetitive_content : Z;
  suspicious_links : Z;
  network_flags : Z
}.

(** The two locals that [calculate_risk_score] accumulates into. *)
Record Running : Type := {
  risk_score : Z;
  explanations : list string
}.

(** The dict returned by [calculate_risk_score]. *)
Module Assessment.

Record t : Type := {
  risk_score : Z;
  risk_level : string;
  risk_color : string;
  recommendation : string;
  explanations : list string;
  account_id : string
}.

End Assessment.

(** [risk_score += pts; explanations.append(msg)] *)
Definition flag (pts : Z) (msg : string) (st : Running) : Running :=
  {| risk_score := risk_score st + pts;
     explanations := explanations st ++ [msg] |}.

(** ** [calculate_risk_score] *)

Definition account_age_days (now : datetime) (account : AccountRecord) : Z :=
  days (now - created_date account).

(** FACTOR 1: Account Age (max 15 points) *)
Definition factor_account_age (age : Z) (st : Running) : Running :=
  if age <? 30 then
    flag 15 "🚩 Very new account (less than 1 month old)" st
  else if age <? 90 then
    flag 8 "⚠️ Relatively new account (less than 3 months)" st
  else if age <? 180 then
    flag 3 "ℹ️ Account is less than 6 months old" st
  else st.

(** FACTOR 2: Follower/Following Ratio (max 20 points) *)
Definition factor_follow_ratio (account : AccountRecord) (st : Running)
  : result Running :=
  if following account >? 0 then
    ff_ratio ← true_div (followers account) (following account);
    if (following account >? 2000) && (followers account <? 100) then
      Ok (flag 20 "🚩 Suspicious follow pattern: Following many, very few followers (bot-like)" st)
    else if Qltb ff_ratio float_0_1 then
      Ok (flag 12 "⚠️ Low follower-to-following ratio (potential spam behavior)" st)
    else if Qgtb ff_ratio 10 && (followers account >? 5000) then
      Ok (flag 0 "✅ High influence: Many followers, selective following (typical influencer/business)" st)
    else Ok st
  else Ok st.

(** FACTOR 3: Posting Frequency (max 20 points) *)
Definition factor_posting_frequency (account : AccountRecord) (st : Running)
  : Running :=
  let ppd := posts_per_day account in
  if Qgtb ppd 10 then
    flag 20 ("🚩 Extremely high posting frequency (" +:+ format_1f ppd
             +:+ " posts/day - likely automated)") st
  else if Qgtb ppd 5 then
    flag 12 ("⚠️ High posting frequency (" +:+ format_1f ppd
             +:+ " posts/day)") st
  else if Qgtb ppd 3 then
    flag 5 ("ℹ️ Active posting (" +:+ format_1f ppd
            +:+ " posts/day - could be legitimate business)") st
  else st.

(** FACTOR 4: Content Repetition (max 15 points) *)
Definition factor_content_repetition (account : AccountRecord) (st : Running)
  : Running :=
  let rc := repetitive_content account in
  if rc >? 70 then
    flag 15 ("🚩 Very repetitive content (" +:+ str_of_int rc
             +:+ "% similar posts)") st
  else if rc >? 50 then
    flag 8 ("⚠️ Moderately repetitive content (" +:+ str_of_int rc
            +:+ "% - could be marketing)") st
  else if rc >? 30 then
    flag 3 ("ℹ️ Some content repetition (" +:+ str_of_int rc
            +:+ "% - possibly promotional)") st
  else st.

(** FACTOR 5: Messaging Behavior (max 15 points) *)
Definition factor_messaging (account : AccountRecord) (st : Running)
  : Running :=
  let m := messages_sent_per_day account in
  if m >? 50 then
    flag 15 ("🚩 Mass messaging activity (" +:+ str_of_int m
             +:+ " messages/day)") st
  else if m >? 20 then
    flag 8 ("⚠️ High messaging volume (" +:+ str_of_int m
            +:+ " messages/day)") st
  else st.

(** FACTOR 6: Suspicious Links (max 10 points) *)
Definition factor_suspicious_links (account : AccountRecord) (st : Running)
  : Running :=
  let sl := suspicious_links account in
  if sl >? 40 then
    flag 10 ("🚩 Many suspicious links (" +:+ str_of_int sl
             +:+ "% of posts)") st
  else if sl >? 20 then
    flag 6 ("⚠️ Moderate suspicious links (" +:+ str_of_int sl
            +:+ "% of posts)") st
  else if sl >? 10 then
    flag 2 ("ℹ️ Some external links (" +:+ str_of_int sl
            +:+ "% - possibly promotional)") st
  else st.

(** FACTOR 7: Network Connections (max 5 points) *)
Definition factor_network (account : AccountRecord) (st : Running)
  : Running :=
  let nf := network_flags account in
  if nf >? 3 then
    flag 5 ("🚩 Connected to " +:+ str_of_int nf
            +:+ " flagged accounts (coordinated behavior)") st
  else if nf >? 0 then
    flag 2 ("⚠️ Connected to " +:+ str_of_int nf
            +:+ " flagged account(s)") st
  else st.

(** Lines 17 to 95: the seven factors, run in order on the two locals. *)
Definition run_factors (now : datetime) (account : AccountRecord)
  : result Running :=
  let st := {| risk_score := 0; explanations := [] |} in
  let st := factor_account_age (account_age_days now account) st in
  st ← factor_follow_ratio account st;
  let st := factor_posting_frequency account st in
  let st := factor_content_repetition account st in
  let st := factor_messaging account st in
  let st := factor_suspicious_links account st in
  let st := factor_network account st in
  Ok st.

Definition HIGH_RISK : string := "HIGH RISK".
Definition MODERATE_RISK : string := "MODERATE RISK".
Definition LOW_RISK : string := "LOW RISK".

Definition recommendation_high : string :=
  "Strong indicators of malicious activity. Recommend immediate review and possible restriction.".
Definition recommendation_moderate : string :=
  "Unusual patterns detected. May be legitimate but warrants human review.".
Definition recommendation_low : string :=
  "Activity appears normal. Account likely legitimate.".

(** Determine risk level: [(risk_level, risk_color, recommendation)]. *)
Definition determine_risk_level (score : Z) : string * string * string :=
  if score >=? 70 then (HIGH_RISK, "🔴", recommendation_high)
  else if score >=? 40 then (MODERATE_RISK, "🟡", recommendation_moderate)
  else (LOW_RISK, "🟢", recommendation_low).

Definition note_verified : string := "✅ Verified account".
Definition note_profile_pic : string := "✅ Has profile picture".
Definition note_bio : string := "✅ Complete profile with bio".
Definition note_established : string := "✅ Established account (over 1 year old)".

(** Add positive signals if low risk. *)
Definition add_positive_signals (score age : Z) (account : AccountRecord)
    (expl : list string) : list string :=
  if score <? 40 then
    let expl := if default false (verified account)
                then expl ++ [note_verified] else expl in
    let expl := if default false (has_profile_pic account)
                then expl ++ [note_profile_pic] else expl in
    let expl := if default 0 (bio_length account) >? 50
                then expl ++ [note_bio] else expl in
    let expl := if age >? 365
                then expl ++ [note_established] else expl in
    expl
  else expl.

Definition calculate_risk_score (now : datetime) (account : AccountRecord)
  : result Assessment.t :=
  let max_score := 100 in
  st ← run_factors now account;
  let score := Z.min (risk_score st) max_score in
  let '(level, color, rec) := determine_risk_level score in
  let expl :=
    add_positive_signals score (account_age_days now account) account
      (explanations st) in
  Ok {| Assessment.risk_score := score;
        Assessment.risk_level := level;
        Assessment.risk_color := color;
        Assessment.recommendation := rec;
        Assessment.explanations := expl;
        Assessment.account_id := account_id account |}.

(** ** The demo fixture of [data_generator.py] *)

(** The third entry of [get_sample_accounts_for_demo], built when the clock
    reads [now]. *)
Definition demo_scammer (now : datetime) : AccountRecord :=
  {| account_id := "demo_scammer";
     account_type := "Scammer";
     created_date := now - timedelta_of_days 10;
     followers := 50;
     following := 3000;
     posts := 150;
     posts_per_day := 15%Q;
     bio_length := Some 80;
     has_profile_pic := Some true;
     verified := Some false;
     avg_likes_per_post := 2;
     messages_sent_per_day := 80;
     repetitive_content := 85;
     suspicious_links := 60;
     network_flags := 5 |}.

(** ** [analyze_batch_accounts] and [get_risk_distribution] *)

(** [{**account.to_dict(), **result}]: the keys of the account followed by
    those of the result; [account_id] is in both, and the value of the
    result wins. *)
Record FullResult : Type := {
  row_account : AccountRecord;
  row_result : Assessment.t
}.

Definition with_account_id (id : string) (account : AccountRecord)
  : AccountRecord :=
  {| account_id := id;
     account_type := account_type account;
     created_date := created_date account;
     followers := followers account;
     following := following account;
     posts := posts account;
     posts_per_day := posts_per_day account;
     bio_length := bio_length account;
     has_profile_pic := has_profile_pic account;
     verified := verified account;
     avg_likes_per_post := avg_likes_per_post account;
     messages_sent_per_day := messages_sent_per_day account;
     repetitive_content := repetitive_content account;
     suspicious_links := suspicious_links account;
     network_flags := network_flags account |}.

Definition dict_merge (account : AccountRecord) (result : Assessment.t)
  : FullResult :=
  {| row_account := with_account_id (Assessment.account_id result) account;
     row_result := result |}.

(** One turn of the loop: score the row, append the merged dict.  The
    state is the list [results] and the number of clock readings taken. *)
Definition analyze_row (clock : nat -> datetime)
    (acc : result (list FullResult * nat)) (account : AccountRecord)
  : result (list FullResult * nat) :=
  '(results, k) ← acc;
  result ← calculate_risk_score (clock k) account;
  Ok (results ++ [dict_merge account result], S k).

(** [df] is the list of rows in index order; [clock k] is what the
    [k]-th call of [datetime.now()] returns.  The frame
    [pd.DataFrame(results)] is the list of its rows. *)
Definition analyze_batch_accounts (clock : nat -> datetime)
    (df : list AccountRecord) : result (list FullResult) :=
  '(results, _) ← fold_left (analyze_row clock) df (Ok ([], 0%nat));
  Ok results.








(** ** What each factor contributes

    The points and the explanations a factor block adds when it is run on
    its own, from a zero total and an empty list. *)

Definition fresh : Running := {| risk_score := 0; explanations := [] |}.

Definition ratio_outcome (account : AccountRecord) : Running :=
  match factor_follow_ratio account fresh with
  | Ok st => st
  | Raise _ => fresh
  end.

Definition age_points (now : datetime) (account : AccountRecord) : Z :=
  risk_score (factor_account_age (account_age_days now account) fresh).
Definition ratio_points (account : AccountRecord) : Z :=
  risk_score (ratio_outcome account).
Definition frequency_points (account : AccountRecord) : Z :=
  risk_score (factor_posting_frequency account fresh).
Definition repetition_points (account : AccountRecord) : Z :=
  risk_score (factor_content_repetition account fresh).
Definition messaging_points (account : AccountRecord) : Z :=
  risk_score (factor_messaging account fresh).
Definition links_points (account : AccountRecord) : Z :=
  risk_score (factor_suspicious_links account fresh).
Definition network_points (account : AccountRecord) : Z :=
  risk_score (factor_network account fresh).

Definition factor_sum (now : datetime) (account : AccountRecord) : Z :=
  age_points now account + ratio_points account + frequency_points account
  + repetition_points account + messaging_points account
  + links_points account + network_points account.

Definition negative_explanations (now : datetime) (account : AccountRecord)
  : list string :=
  explanations (factor_account_age (account_age_days now account) fresh)
  ++ explanations (ratio_outcome account)
  ++ explanations (factor_posting_frequency account fresh)
  ++ explanations (factor_content_repetition account fresh)
  ++ explanations (factor_messaging account fresh)
  ++ explanations (factor_suspicious_links account fresh)
  ++ explanations (factor_network account fresh).

(** [st] with [pts] more points and [msgs] more explanations. *)
Definition extend (st : Running) (pts : Z) (msgs : list string) : Running :=
  {| risk_score := risk_score st + pts;
     explanations := explanations st ++ msgs |}.

(** * Properties *)

(** ** A factor adds the same whatever the running total *)

Lemma extend_fresh st : extend st (risk_score fresh) (explanations fresh) = st.
Proof.
  destruct st as [n l]. unfold extend. simpl.
  f_equal; [lia | apply app_nil_r].
Qed.

Lemma extend_flag st pts msg :
  flag pts msg st
  = extend st (risk_score (flag pts msg fresh))
              (explanations (flag pts msg fresh)).
Proof. reflexivity. Qed.

Ltac by_branches :=
  repeat match goal with
         | |- context [if ?c then _ else _] => destruct c
         end;
  rewrite ?extend_fresh; auto using extend_flag.

Lemma factor_account_age_adds age st :
  factor_account_age age st
  = extend st (risk_score (factor_account_age age fresh))
              (explanations (factor_account_age age fresh)).
Proof. unfold factor_account_age. by_branches. Qed.

Lemma factor_posting_frequency_adds account st :
  factor_posting_frequency account st
  = extend st (frequency_points account)
              (explanations (factor_posting_frequency account fresh)).
Proof.
  unfold frequency_points, factor_posting_frequency. cbv zeta. by_branches.
Qed.

Lemma factor_content_repetition_adds account st :
  factor_content_repetition account st
  = extend st (repetition_points account)
              (explanations (factor_content_repetition account fresh)).
Proof.
  unfold repetition_points, factor_content_repetition. cbv zeta. by_branches.
Qed.

Lemma factor_messaging_adds account st :
  factor_messaging account st
  = extend st (messaging_points account)
              (explanations (factor_messaging account fresh)).
Proof. unfold messaging_points, factor_messaging. cbv zeta. by_branches. Qed.

Lemma factor_suspicious_links_adds account st :
  factor_suspicious_links account st
  = extend st (links_points account)
              (explanations (factor_suspicious_links account fresh)).
Proof.
  unfold links_points, factor_suspicious_links. cbv zeta. by_branches.
Qed.

Lemma factor_network_adds account st :
  factor_network account st
  = extend st (network_points account)
              (explanations (factor_network account fresh)).
Proof. unfold network_points, factor_network. cbv zeta. by_branches. Qed.

(** The one way the ratio block fails: it divides, and the rounded
    quotient is out of the range of floats. *)
Definition ratio_overflows (account : AccountRecord) : bool :=
  (following account >? 0)
  && binary64_overflows
       (round_binary64
          (inject_Z (followers account) / inject_Z (following account))).

(** The guard [following > 0] keeps the division away from a zero
    divisor; the block completes unless the quotient overflows. *)
Lemma factor_follow_ratio_adds account st :
  factor_follow_ratio account st
  = if ratio_overflows account then Raise OverflowError
    else Ok (extend st (ratio_points account)
               (explanations (ratio_outcome account))).
Proof.
  unfold ratio_overflows, ratio_points, ratio_outcome, factor_follow_ratio,
    true_div.
  destruct (following account >? 0) eqn:Hpos; cbn [andb].
  - assert ((following account =? 0) = false) as -> by lia. cbv zeta.
    destruct (binary64_overflows _); [done |].
    unfold mbind, result_bind. by_branches.
  - by rewrite extend_fresh.
Qed.

Lemma extend_extend st p1 m1 p2 m2 :
  extend (extend st p1 m1) p2 m2 = extend st (p1 + p2) (m1 ++ m2).
Proof.
  unfold extend. simpl. f_equal; [lia | by rewrite app_assoc].
Qed.

Lemma run_factors_sum now account :
  run_factors now account
  = if ratio_overflows account then Raise OverflowError
    else Ok {| risk_score := factor_sum now account;
               explanations := negative_explanations now account |}.
Proof.
  unfold run_factors.
  rewrite factor_follow_ratio_adds.
  destruct (ratio_overflows account); [done |].
  unfold mbind, result_bind.
  rewrite factor_posting_frequency_adds, factor_content_repetition_adds,
    factor_messaging_adds, factor_suspicious_links_adds, factor_network_adds.
  rewrite !extend_extend.
  set (st := factor_account_age _ _).
  unfold extend, factor_sum, negative_explanations, age_points.
  fold st. f_equal. f_equal. subst st. unfold fresh. lia.
Qed.

(** ** The result of [calculate_risk_score], in closed form *)

Definition final_score (now : datetime) (account : AccountRecord) : Z :=
  Z.min (factor_sum now account) 100.

(** What the call returns when it returns. *)
Definition scored (now : datetime) (account : AccountRecord)
  : Assessment.t :=
  {| Assessment.risk_score := final_score now account;
     Assessment.risk_level :=
       (determine_risk_level (final_score now account)).1.1;
     Assessment.risk_color :=
       (determine_risk_level (final_score now account)).1.2;
     Assessment.recommendation :=
       (determine_risk_level (final_score now account)).2;
     Assessment.explanations :=
       add_positive_signals (final_score now account)
         (account_age_days now account) account
         (negative_explanations now account);
     Assessment.account_id := account_id account |}.

Lemma calculate_risk_score_eq now account :
  calculate_risk_score now account
  = if ratio_overflows account then Raise OverflowError
    else Ok (scored now account).
Proof.
  unfold calculate_risk_score. rewrite run_factors_sum.
  destruct (ratio_overflows account); [done |].
  unfold mbind, result_bind, scored. cbn [risk_score explanations].
  fold (final_score now account).
  by destruct (determine_risk_level _) as [[level color] rec].
Qed.

(** The call returns unless the ratio overflows, and then it raises
    [OverflowError]. *)
Lemma calculate_risk_score_returns now account :
  ratio_overflows account = false ->
  calculate_risk_score now account = Ok (scored now account).
Proof. intros Hin. by rewrite calculate_risk_score_eq, Hin. Qed.

Lemma calculate_risk_score_Ok now account r :
  calculate_risk_score now account = Ok r ->
  ratio_overflows account = false /\ r = scored now account.
Proof.
  rewrite calculate_risk_score_eq.
  destruct (ratio_overflows account); [done |]. by intros [= <-].
Qed.

Lemma run_factors_Ok now account st :
  run_factors now account = Ok st ->
  ratio_overflows account = false
  /\ st = {| risk_score := factor_sum now account;
             explanations := negative_explanations now account |}.
Proof.
  rewrite run_factors_sum.
  destruct (ratio_overflows account); [done |]. by intros [= <-].
Qed.

(** ** Bounds of the seven contributions *)

Lemma Qltb_lt x y : Qltb x y = true <-> (x < y)%Q.
Proof.
  unfold Qltb. rewrite negb_true_iff, <- not_true_iff_false, Qle_bool_iff.
  split; [apply Qnot_le_lt | apply Qlt_not_le].
Qed.

Lemma Qgtb_gt x y : Qgtb x y = true <-> (y < x)%Q.
Proof. apply Qltb_lt. Qed.

Lemma age_points_range now account :
  0 <= age_points now account <= 15
  /\ (age_points now account = 15 <-> account_age_days now account < 30).
Proof.
  unfold age_points, factor_account_age.
  repeat case_match; simpl; lia.
Qed.

Lemma ratio_points_range account :
  0 <= ratio_points account <= 20
  /\ (ratio_overflows account = false ->
      (ratio_points account = 20
       <-> following account > 2000 /\ followers account < 100)).
Proof.
  unfold ratio_overflows, ratio_points, ratio_outcome, factor_follow_ratio,
    true_div.
  destruct (following account >? 0) eqn:Hpos; cbn [andb];
    [| simpl; lia].
  assert ((following account =? 0) = false) as -> by lia. cbv zeta.
  generalize float_0_1. intros tenth.
  generalize (round_binary64
                (inject_Z (followers account) / inject_Z (following account))).
  intros q.
  destruct (binary64_overflows q); [simpl; split; [lia | done] |].
  unfold mbind, result_bind.
  destruct (following account >? 2000) eqn:H1,
           (followers account <? 100) eqn:H2; simpl;
    repeat case_match; simplify_eq; simpl; lia.
Qed.

Lemma frequency_points_range account :
  0 <= frequency_points account <= 20
  /\ (frequency_points account = 20 <-> (10 < posts_per_day account)%Q).
Proof.
  unfold frequency_points, factor_posting_frequency. cbv zeta.
  rewrite <- Qgtb_gt.
  repeat case_match; simpl; intuition (lia || congruence).
Qed.

Lemma repetition_points_range account :
  0 <= repetition_points account <= 15
  /\ (repetition_points account = 15 <-> repetitive_content account > 70).
Proof.
  unfold repetition_points, factor_content_repetition. cbv zeta.
  repeat case_match; simpl; lia.
Qed.

Lemma messaging_points_range account :
  0 <= messaging_points account <= 15
  /\ (messaging_points account = 15 <-> messages_sent_per_day account > 50).
Proof.
  unfold messaging_points, factor_messaging. cbv zeta.
  repeat case_match; simpl; lia.
Qed.

Lemma links_points_range account :
  0 <= links_points account <= 10
  /\ (links_points account = 10 <-> suspicious_links account > 40).
Proof.
  unfold links_points, factor_suspicious_links. cbv zeta.
  repeat case_match; simpl; lia.
Qed.

Lemma network_points_range account :
  0 <= network_points account <= 5
  /\ (network_points account = 5 <-> network_flags account > 3).
Proof.
  unfold network_points, factor_network. cbv zeta.
  repeat case_match; simpl; lia.
Qed.

Lemma factor_sum_range now account : 0 <= factor_sum now account <= 100.
Proof.
  unfold factor_sum.
  pose proof (age_points_range now account).
  pose proof (ratio_points_range account).
  pose proof (frequency_points_range account).
  pose proof (repetition_points_range account).
  pose proof (messaging_points_range account).
  pose proof (links_points_range account).
  pose proof (network_points_range account).
  lia.
Qed.

(** ** The clock *)


(** An account created at time 0, otherwise unremarkable. *)
Definition quiet_account : AccountRecord :=
  {| account_id := "user_0";
     account_type := "Normal User";
     created_date := 0;
     followers := 500;
     following := 300;
     posts := 100;
     posts_per_day := 1%Q;
     bio_length := Some 100;
     has_profile_pic := Some true;
     verified := Some false;
     avg_likes_per_post := 50;
     messages_sent_per_day := 5;
     repetitive_content := 20;
     suspicious_links := 5;
     network_flags := 0 |}.




(** ** Score *)

(** C2: the [risk_score] a call returns lies in [0, 100], and it is the
    sum of the seven factor contributions, each computed on its own,
    clamped to at most 100.  This holds for every record the call returns
    on, valid or not; and it returns on every record whose
    follower/following quotient is in the range of floats. *)
Theorem risk_score_is_clamped_factor_sum now account :
  (ratio_overflows account = false ->
   exists r, calculate_risk_score now account = Ok r)
  /\ (forall r,
        calculate_risk_score now account = Ok r ->
        0 <= Assessment.risk_score r <= 100
        /\ Assessment.risk_score r
           = Z.min (age_points now account + ratio_points account
                    + frequency_points account + repetition_points account
                    + messaging_points account + links_points account
                    + network_points account) 100).
Proof.
  split.
  - intros Hin. rewrite (calculate_risk_score_returns _ _ Hin). eauto.
  - intros r Hr. apply calculate_risk_score_Ok in Hr as [_ ->].
    cbn [scored Assessment.risk_score]. unfold final_score.
    pose proof (factor_sum_range now account).
    fold (factor_sum now account). lia.
Qed.

(** C10: the sum of the seven contributions, before the clamp, is the
    running total the factor blocks leave; every contribution is at most
    its maximum (15, 20, 20, 15, 15, 10, 5), so the total never exceeds
    100 and [min(risk_score, 100)] returns it unchanged; the total is 100
    exactly when every factor takes its first, maximal branch.  The blocks
    leave a total on every record whose follower/following quotient is in
    the range of floats. *)
Theorem factor_sum_never_exceeds_100 now account :
  (ratio_overflows account = false ->
   exists st, run_factors now account = Ok st)
  /\ (forall st,
        run_factors now account = Ok st ->
        risk_score st
        = age_points now account + ratio_points account
          + frequency_points account + repetition_points account
          + messaging_points account + links_points account
          + network_points account
        /\ (age_points now account <= 15 /\ ratio_points account <= 20
            /\ frequency_points account <= 20
            /\ repetition_points account <= 15
            /\ messaging_points account <= 15
            /\ links_points account <= 10
            /\ network_points account <= 5)
        /\ 0 <= risk_score st <= 100
        /\ Z.min (risk_score st) 100 = risk_score st
        /\ (risk_score st = 100
            <-> account_age_days now account < 30
                /\ (following account > 2000 /\ followers account < 100)
                /\ (10 < posts_per_day account)%Q
                /\ repetitive_content account > 70
                /\ messages_sent_per_day account > 50
                /\ suspicious_links account > 40
                /\ network_flags account > 3)).
Proof.
  split.
  - intros Hin. rewrite run_factors_sum, Hin. eauto.
  - intros st Hst. apply run_factors_Ok in Hst as [Hin ->].
    cbn [risk_score]. unfold factor_sum.
    destruct (age_points_range now account) as [? <-].
    destruct (ratio_points_range account) as [? Hratio].
    destruct (Hratio Hin) as [Hr1 Hr2].
    destruct (frequency_points_range account) as [? <-].
    destruct (repetition_points_range account) as [? <-].
    destruct (messaging_points_range account) as [? <-].
    destruct (links_points_range account) as [? <-].
    destruct (network_points_range account) as [? <-].
    split_and!; lia.
Qed.

(** ** Band *)

Lemma determine_risk_level_bands score :
  (score >= 70 ->
   determine_risk_level score = (HIGH_RISK, "🔴", recommendation_high))
  /\ (40 <= score < 70 ->
      determine_risk_level score
      = (MODERATE_RISK, "🟡", recommendation_moderate))
  /\ (score < 40 ->
      determine_risk_level score = (LOW_RISK, "🟢", recommendation_low)).
Proof.
  unfold determine_risk_level.
  destruct (Z.geb_spec score 70), (Z.geb_spec score 40);
    repeat split; intros; (done || lia).
Qed.

(** C5: in whatever a call returns, the level, the colour and the
    recommendation are decided by the final score alone: 70 and above is
    HIGH RISK, 40 to 69 MODERATE RISK, below 40 LOW RISK, each with its
    fixed recommendation; two results with the same score, from whatever
    records, have the same level, colour and recommendation.  The call
    returns on every record whose follower/following quotient is in the
    range of floats. *)
Theorem risk_level_from_score now account :
  (ratio_overflows account = false ->
   exists r, calculate_risk_score now account = Ok r)
  /\ (forall r,
        calculate_risk_score now account = Ok r ->
        (Assessment.risk_score r >= 70 ->
         Assessment.risk_level r = "HIGH RISK"
         /\ Assessment.recommendation r = recommendation_high)
        /\ (40 <= Assessment.risk_score r < 70 ->
            Assessment.risk_level r = "MODERATE RISK"
            /\ Assessment.recommendation r = recommendation_moderate)
        /\ (Assessment.risk_score r < 40 ->
            Assessment.risk_level r = "LOW RISK"
            /\ Assessment.recommendation r = recommendation_low)
        /\ (forall now' account' r',
              calculate_risk_score now' account' = Ok r' ->
              Assessment.risk_score r' = Assessment.risk_score r ->
              Assessment.risk_level r' = Assessment.risk_level r
              /\ Assessment.risk_color r' = Assessment.risk_color r
              /\ Assessment.recommendation r'
                 = Assessment.recommendation r)).
Proof.
  split.
  { intros Hin. rewrite (calculate_risk_score_returns _ _ Hin). eauto. }
  intros r Hr. apply calculate_risk_score_Ok in Hr as [_ ->].
  cbn [scored Assessment.risk_score Assessment.risk_level
       Assessment.risk_color Assessment.recommendation].
  destruct (determine_risk_level_bands (final_score now account))
    as (Hhigh & Hmod & Hlow).
  split; [| split; [| split]].
  - intros Hs. by rewrite Hhigh.
  - intros Hs. by rewrite Hmod.
  - intros Hs. by rewrite Hlow.
  - intros now' account' r' Hr' Hsame.
    apply calculate_risk_score_Ok in Hr' as [_ ->].
    cbn [scored Assessment.risk_score Assessment.risk_level
         Assessment.risk_color Assessment.recommendation] in *.
    by rewrite Hsame.
Qed.

(** ** The scammer of the demo *)

Lemma Qgtb_proper x y c : (x == y)%Q -> Qgtb x c = Qgtb y c.
Proof.
  intros Heq. unfold Qgtb, Qltb. f_equal.
  apply eq_true_iff_eq. rewrite !Qle_bool_iff. by rewrite Heq.
Qed.

(** C3: a record with the values of the demo scammer (10 days old, 50
    followers, 3000 following, 15.0 posts a day, 85% repetitive, 60%
    suspicious links, 80 messages a day, 5 network flags) is scored exactly
    100 = 15 + 20 + 20 + 15 + 15 + 10 + 5, and classified HIGH RISK. *)
Theorem scammer_scores_100 now account :
  account_age_days now account = 10 ->
  followers account = 50 ->
  following account = 3000 ->
  (posts_per_day account == 15)%Q ->
  repetitive_content account = 85 ->
  suspicious_links account = 60 ->
  messages_sent_per_day account = 80 ->
  network_flags account = 5 ->
  exists r,
    calculate_risk_score now account = Ok r
    /\ Assessment.risk_score r = 100
    /\ Assessment.risk_level r = "HIGH RISK"
    /\ age_points now account = 15
    /\ ratio_points account = 20
    /\ frequency_points account = 20
    /\ repetition_points account = 15
    /\ messaging_points account = 15
    /\ links_points account = 10
    /\ network_points account = 5.
Proof.
  intros Hage Hfers Hfing Hppd Hrep Hlinks Hmsg Hnet.
  assert (age_points now account = 15) as Hp1
    by (unfold age_points; by rewrite Hage).
  assert (ratio_points account = 20) as Hp2
    by (unfold ratio_points, ratio_outcome, factor_follow_ratio;
        rewrite Hfers, Hfing; by vm_compute).
  assert (ratio_overflows account = false) as Hin
    by (unfold ratio_overflows; rewrite Hfers, Hfing; by vm_compute).
  assert (frequency_points account = 20) as Hp3
    by (unfold frequency_points, factor_posting_frequency; cbv zeta;
        by rewrite (Qgtb_proper _ 15 10 Hppd)).
  assert (repetition_points account = 15) as Hp4
    by (unfold repetition_points, factor_content_repetition;
        by rewrite Hrep).
  assert (messaging_points account = 15) as Hp5
    by (unfold messaging_points, factor_messaging; by rewrite Hmsg).
  assert (links_points account = 10) as Hp6
    by (unfold links_points, factor_suspicious_links; by rewrite Hlinks).
  assert (network_points account = 5) as Hp7
    by (unfold network_points, factor_network; by rewrite Hnet).
  rewrite (calculate_risk_score_returns _ _ Hin). eexists. split; [done |].
  cbn [scored Assessment.risk_score Assessment.risk_level].
  unfold final_score, factor_sum.
  rewrite Hp1, Hp2, Hp3, Hp4, Hp5, Hp6, Hp7. by vm_compute.
Qed.

Lemma scammer_scores_100_witness :
  exists r,
    calculate_risk_score 1000 (demo_scammer 0) = Ok r
    /\ Assessment.risk_score r = 100
    /\ Assessment.risk_level r = "HIGH RISK"
    /\ age_points 1000 (demo_scammer 0) = 15
    /\ ratio_points (demo_scammer 0) = 20
    /\ frequency_points (demo_scammer 0) = 20
    /\ repetition_points (demo_scammer 0) = 15
    /\ messaging_points (demo_scammer 0) = 15
    /\ links_points (demo_scammer 0) = 10
    /\ network_points (demo_scammer 0) = 5.
Proof.
  apply (scammer_scores_100 1000 (demo_scammer 0)); vm_compute; reflexivity.
Defined.

(** The fixture is ten days old when it is scored within a day of being
    built, and its full assessment is this one. *)
Lemma demo_scammer_age t0 t1 :
  t0 <= t1 < t0 + microseconds_per_day ->
  account_age_days t1 (demo_scammer t0) = 10.
Proof.
  intros Hnow. unfold account_age_days, days. cbn [created_date demo_scammer].
  unfold timedelta_of_days.
  replace (t1 - (t0 - 10 * microseconds_per_day))
    with ((t1 - t0) + 10 * microseconds_per_day) by lia.
  rewrite Z.div_add by done. rewrite Z.div_small by lia. done.
Qed.

Lemma demo_scammer_assessment t0 t1 :
  t0 <= t1 < t0 + microseconds_per_day ->
  calculate_risk_score t1 (demo_scammer t0)
  = Ok {| Assessment.risk_score := 100;
          Assessment.risk_level := "HIGH RISK";
          Assessment.risk_color := "🔴";
          Assessment.recommendation := recommendation_high;
          Assessment.explanations :=
            ["🚩 Very new account (less than 1 month old)";
             "🚩 Suspicious follow pattern: Following many, very few followers (bot-like)";
             "🚩 Extremely high posting frequency (15.0 posts/day - likely automated)";
             "🚩 Very repetitive content (85% similar posts)";
             "🚩 Mass messaging activity (80 messages/day)";
             "🚩 Many suspicious links (60% of posts)";
             "🚩 Connected to 5 flagged accounts (coordinated behavior)"];
          Assessment.account_id := "demo_scammer" |}.
Proof.
  intros Hnow. unfold calculate_risk_score, run_factors.
  rewrite (demo_scammer_age t0 t1 Hnow). reflexivity.
Qed.

(** ** The guard on [following] *)

(** A much-followed account that follows nobody. *)
Definition follows_nobody : AccountRecord :=
  {| account_id := "user_1";
     account_type := "Normal User";
     created_date := 0;
     followers := 1000000;
     following := 0;
     posts := 40;
     posts_per_day := (1 # 2)%Q;
     bio_length := Some 10;
     has_profile_pic := Some true;
     verified := Some true;
     avg_likes_per_post := 900;
     messages_sent_per_day := 0;
     repetitive_content := 0;
     suspicious_links := 0;
     network_flags := 0 |}.

(** C6: when [following] is 0 the division, which would raise, is not
    reached: the ratio block returns the running state as it got it (no
    points, no explanation), whatever [followers] is, and the whole call
    returns. *)
Theorem following_zero_skips_ratio now account st :
  following account = 0 ->
  true_div (followers account) (following account) = Raise ZeroDivisionError
  /\ factor_follow_ratio account st = Ok st
  /\ ratio_points account = 0
  /\ explanations (ratio_outcome account) = []
  /\ exists r, calculate_risk_score now account = Ok r.
Proof.
  intros Hzero.
  unfold ratio_points, ratio_outcome, factor_follow_ratio, true_div.
  rewrite Hzero. repeat split.
  rewrite calculate_risk_score_returns; [eauto |].
  unfold ratio_overflows. by rewrite Hzero.
Qed.

Lemma following_zero_skips_ratio_witness :
  true_div 1000000 0 = Raise ZeroDivisionError
  /\ factor_follow_ratio follows_nobody (flag 15 "x" fresh)
     = Ok (flag 15 "x" fresh)
  /\ ratio_points follows_nobody = 0
  /\ explanations (ratio_outcome follows_nobody) = []
  /\ exists r, calculate_risk_score 0 follows_nobody = Ok r.
Proof.
  exact (following_zero_skips_ratio 0 follows_nobody (flag 15 "x" fresh)
           eq_refl).
Defined.

(** ** Thresholds are strict *)




(** The same on whole calls: scored on its thirtieth day, and again with
    exactly 10 posts a day, the quiet account gets 8 and then 8 + 12. *)
Example boundary_scores :
  Assessment.risk_score
    <$> calculate_risk_score (timedelta_of_days 30) quiet_account = Ok 8
  /\ Assessment.risk_score
       <$> calculate_risk_score (timedelta_of_days 30)
             {| account_id := "user_0"; account_type := "Normal User";
                created_date := 0; followers := 500; following := 300;
                posts := 300; posts_per_day := 10%Q; bio_length := Some 100;
                has_profile_pic := Some true; verified := Some false;
                avg_likes_per_post := 50; messages_sent_per_day := 5;
                repetitive_content := 20; suspicious_links := 5;
                network_flags := 0 |} = Ok 20.
Proof. split; reflexivity. Qed.

(** An account with the given follower and following counts. *)
Definition follow_profile (fers fing : Z) : AccountRecord :=
  {| account_id := "user_2";
     account_type := "Normal User";
     created_date := 0;
     followers := fers;
     following := fing;
     posts := 100;
     posts_per_day := 1%Q;
     bio_length := None;
     has_profile_pic := None;
     verified := None;
     avg_likes_per_post := 50;
     messages_sent_per_day := 5;
     repetitive_content := 20;
     suspicious_links := 5;
     network_flags := 0 |}.

(** The ratio factor compares floats: 10 followers for 100 following is
    the float 0.1 itself, which is not below 0.1, and gets no points; one
    follower fewer gets the 12 points.  A following of exactly 2000, or
    exactly 100 followers, is not the bot pattern; a ratio of exactly 10,
    or exactly 5000 followers, is not the influencer one. *)
Example ratio_boundaries :
  true_div 10 100 = Ok float_0_1
  /\ ratio_points (follow_profile 10 100) = 0
  /\ ratio_points (follow_profile 9 100) = 12
  /\ ratio_points (follow_profile 50 2000) = 12
  /\ ratio_points (follow_profile 50 2001) = 20
  /\ ratio_points (follow_profile 100 2001) = 12
  /\ explanations (ratio_outcome (follow_profile 6000 600)) = []
  /\ explanations (ratio_outcome (follow_profile 5000 100)) = []
  /\ explanations (ratio_outcome (follow_profile 6000 599))
     = ["✅ High influence: Many followers, selective following (typical influencer/business)"].
Proof. repeat split. Qed.

(** ** The field [avg_likes_per_post] *)

(** [account] with another value under [avg_likes_per_post]. *)
Definition with_avg_likes_per_post (likes : Z) (account : AccountRecord)
  : AccountRecord :=
  {| account_id := account_id account;
     account_type := account_type account;
     created_date := created_date account;
     followers := followers account;
     following := following account;
     posts := posts account;
     posts_per_day := posts_per_day account;
     bio_length := bio_length account;
     has_profile_pic := has_profile_pic account;
     verified := verified account;
     avg_likes_per_post := likes;
     messages_sent_per_day := messages_sent_per_day account;
     repetitive_content := repetitive_content account;
     suspicious_links := suspicious_links account;
     network_flags := network_flags account |}.

(** C9: scoring never reads [avg_likes_per_post].  Two records that differ
    in that field only, scored at the same reading of the clock, have the
    same outcome: the same score, level, colour, recommendation,
    explanations and account id, which both calls return whenever the
    follower/following quotient is in the range of floats. *)
Theorem avg_likes_per_post_is_ignored now likes account :
  calculate_risk_score now (with_avg_likes_per_post likes account)
  = calculate_risk_score now account
  /\ (ratio_overflows account = false ->
      exists r,
        calculate_risk_score now (with_avg_likes_per_post likes account)
        = Ok r
        /\ calculate_risk_score now account = Ok r).
Proof.
  assert (calculate_risk_score now (with_avg_likes_per_post likes account)
          = calculate_risk_score now account) as Hsame by reflexivity.
  split; [exact Hsame |]. intros Hin. rewrite Hsame.
  rewrite (calculate_risk_score_returns _ _ Hin). eauto.
Qed.

(** ** Positive signals *)

Definition positive_notes : list string :=
  [note_verified; note_profile_pic; note_bio; note_established].

(** [[msg]] when the gate is open, nothing otherwise. *)
Definition gated (gate : bool) (msg : string) : list string :=
  if gate then [msg] else [].

(** What the last block appends, in its order. *)
Definition positive_signals (score age : Z) (account : AccountRecord)
  : list string :=
  if score <? 40 then
    gated (default false (verified account)) note_verified
    ++ gated (default false (has_profile_pic account)) note_profile_pic
    ++ gated (default 0 (bio_length account) >? 50) note_bio
    ++ gated (age >? 365) note_established
  else [].

Lemma add_positive_signals_app score age account expl :
  add_positive_signals score age account expl
  = expl ++ positive_signals score age account.
Proof.
  unfold add_positive_signals, positive_signals, gated.
  repeat case_match; rewrite <- ?app_assoc, ?app_nil_r; reflexivity.
Qed.

(** How the explanations of the seven factors begin: with one of the three
    warning signs, or they are the influencer remark. *)
Definition factor_note (msg : string) : bool :=
  String.prefix "🚩" msg || String.prefix "⚠️" msg
  || String.prefix "ℹ️" msg
  || String.eqb msg "✅ High influence: Many followers, selective following (typical influencer/business)".

Lemma negative_explanations_factor_notes now account :
  Forall (fun msg => factor_note msg = true)
    (negative_explanations now account).
Proof.
  unfold negative_explanations, ratio_outcome.
  repeat apply Forall_app_2.
  - unfold factor_account_age. repeat case_match; repeat constructor.
  - unfold factor_follow_ratio. destruct (true_div _ _); simpl;
      repeat case_match; simplify_eq; repeat constructor.
  - unfold factor_posting_frequency. cbv zeta.
    repeat case_match; repeat constructor.
  - unfold factor_content_repetition. cbv zeta.
    repeat case_match; repeat constructor.
  - unfold factor_messaging. cbv zeta.
    repeat case_match; repeat constructor.
  - unfold factor_suspicious_links. cbv zeta.
    repeat case_match; repeat constructor.
  - unfold factor_network. cbv zeta.
    repeat case_match; repeat constructor.
Qed.

Lemma positive_note_not_negative now account msg :
  msg ∈ positive_notes -> msg ∉ negative_explanations now account.
Proof.
  intros Hpos Hneg.
  pose proof (negative_explanations_factor_notes now account) as Hall.
  rewrite Forall_forall in Hall. specialize (Hall msg Hneg).
  unfold positive_notes in Hpos.
  rewrite !elem_of_cons, elem_of_nil in Hpos.
  destruct Hpos as [-> | [-> | [-> | [-> | []]]]]; discriminate Hall.
Qed.

Ltac settle_membership :=
  unfold note_verified, note_profile_pic, note_bio, note_established;
  rewrite ?elem_of_cons, ?elem_of_nil;
  split;
  [ intros Hin;
    repeat match goal with
           | H : _ \/ _ |- _ => destruct H
           end;
    try done; try discriminate; try (split; (lia || done))
  | intros [? ?]; try discriminate; try lia; auto 10 ].

Lemma positive_signals_membership score age account :
  (note_verified ∈ positive_signals score age account
   <-> score < 40 /\ verified account = Some true)
  /\ (note_profile_pic ∈ positive_signals score age account
      <-> score < 40 /\ has_profile_pic account = Some true)
  /\ (note_bio ∈ positive_signals score age account
      <-> score < 40 /\ default 0 (bio_length account) > 50)
  /\ (note_established ∈ positive_signals score age account
      <-> score < 40 /\ age > 365).
Proof.
  unfold positive_signals, gated.
  destruct (Z.ltb_spec score 40) as [Hlow | Hhigh];
    [| split_and!;
       (split; [intros Hin; by apply elem_of_nil in Hin | lia]) ].
  destruct (verified account) as [[] |], (has_profile_pic account) as [[] |],
    (Z.gtb_spec (default 0 (bio_length account)) 50),
    (Z.gtb_spec age 365);
    simpl;
    split_and!; settle_membership.
Qed.

(** C4: in whatever a call returns, the last block has left the score
    alone and appended to the explanations of the seven factors, in this
    order, "Verified account", "Has profile picture", "Complete profile
    with bio" and "Established account", each one only if its own
    condition holds, and all four only if the final score is below 40.  So
    each of the four is in the returned list if and only if the score is
    below 40 and its condition holds.  The call returns on every record
    whose follower/following quotient is in the range of floats. *)
Theorem positive_signals_iff_low_risk now account :
  (ratio_overflows account = false ->
   exists r, calculate_risk_score now account = Ok r)
  /\ (forall r,
        calculate_risk_score now account = Ok r ->
        exists st,
          run_factors now account = Ok st
          /\ Assessment.risk_score r = Z.min (risk_score st) 100
          /\ Assessment.explanations r
             = explanations st
               ++ (if Assessment.risk_score r <? 40 then
                     (if default false (verified account)
                      then [note_verified] else [])
                     ++ (if default false (has_profile_pic account)
                         then [note_profile_pic] else [])
                     ++ (if default 0 (bio_length account) >? 50
                         then [note_bio] else [])
                     ++ (if account_age_days now account >? 365
                         then [note_established] else [])
                   else [])
          /\ (forall msg, msg ∈ positive_notes -> msg ∉ explanations st)
          /\ (note_verified ∈ Assessment.explanations r
              <-> Assessment.risk_score r < 40
                  /\ verified account = Some true)
          /\ (note_profile_pic ∈ Assessment.explanations r
              <-> Assessment.risk_score r < 40
                  /\ has_profile_pic account = Some true)
          /\ (note_bio ∈ Assessment.explanations r
              <-> Assessment.risk_score r < 40
                  /\ default 0 (bio_length account) > 50)
          /\ (note_established ∈ Assessment.explanations r
              <-> Assessment.risk_score r < 40
                  /\ account_age_days now account > 365)).
Proof.
  split.
  { intros Hin. rewrite (calculate_risk_score_returns _ _ Hin). eauto. }
  intros r Hr. apply calculate_risk_score_Ok in Hr as [Hin ->].
  rewrite run_factors_sum, Hin.
  eexists. split; [done |].
  cbn [scored Assessment.risk_score Assessment.explanations
       risk_score explanations].
  fold (final_score now account).
  rewrite add_positive_signals_app.
  split; [done |]. split; [done |].
  split; [apply positive_note_not_negative |].
  pose proof (positive_signals_membership (final_score now account)
                (account_age_days now account) account)
    as (Hv & Hp & Hb & He).
  rewrite !elem_of_app, Hv, Hp, Hb, He.
  split_and!;
    (split; [| by right]);
    (intros [Hneg | Hpos]; [exfalso | exact Hpos]);
    revert Hneg; apply positive_note_not_negative;
    unfold positive_notes; repeat constructor.
Qed.

(** ** Batch analysis *)

(** The rows the loop builds: the [i]-th account merged with its own
    assessment, made at the [i]-th reading of the clock. *)
Definition scored_rows (clock : nat -> datetime) (df : list AccountRecord)
  : list FullResult :=
  imap (fun i account => dict_merge account (scored (clock i) account)) df.

(** No row of the batch makes the division overflow. *)
Definition batch_in_range (df : list AccountRecord) : Prop :=
  Forall (fun account => ratio_overflows account = false) df.

Lemma analyze_rows_raise clock df e :
  fold_left (analyze_row clock) df (Raise e) = Raise e.
Proof. induction df as [| account df IH]; [done | exact IH]. Qed.

Lemma analyze_row_eq clock acc k account :
  analyze_row clock (Ok (acc, k)) account
  = if ratio_overflows account then Raise OverflowError
    else Ok (acc ++ [dict_merge account (scored (clock k) account)], S k).
Proof.
  unfold analyze_row, mbind, result_bind.
  rewrite calculate_risk_score_eq. by destruct (ratio_overflows account).
Qed.

(** The loop appends one merged row per account, in order, each scored at
    its own reading of the clock. *)
Lemma analyze_rows_imap clock df :
  forall acc k,
    batch_in_range df ->
    fold_left (analyze_row clock) df (Ok (acc, k))
    = Ok (acc ++ scored_rows (fun i => clock (k + i)%nat) df,
          (k + length df)%nat).
Proof.
  unfold scored_rows.
  induction df as [| account df IH]; intros acc k Hin.
  - cbn. by rewrite app_nil_r, Nat.add_0_r.
  - apply Forall_cons in Hin as [Hhead Htail].
    cbn [fold_left]. rewrite analyze_row_eq, Hhead, (IH _ _ Htail).
    cbn [imap length]. rewrite <- app_assoc, Nat.add_0_r. cbn [app].
    replace (k + S (length df))%nat with (S k + length df)%nat by lia.
    do 4 f_equal. apply imap_ext. intros i a _. cbn.
    by replace (k + S i)%nat with (S (k + i)) by lia.
Qed.

(** It stops on the first row whose division overflows. *)
Lemma analyze_rows_Ok clock df :
  forall acc k res,
    fold_left (analyze_row clock) df (Ok (acc, k)) = Ok res ->
    batch_in_range df.
Proof.
  induction df as [| account df IH]; intros acc k res Hres.
  - constructor.
  - cbn [fold_left] in Hres. rewrite analyze_row_eq in Hres.
    destruct (ratio_overflows account) eqn:Hover.
    + by rewrite analyze_rows_raise in Hres.
    + constructor; [done |]. by eapply IH.
Qed.

Lemma analyze_batch_accounts_returns clock df :
  batch_in_range df ->
  analyze_batch_accounts clock df = Ok (scored_rows clock df).
Proof.
  intros Hin. unfold analyze_batch_accounts.
  by rewrite (analyze_rows_imap clock df [] 0%nat Hin).
Qed.

Lemma analyze_batch_accounts_Ok clock df results :
  analyze_batch_accounts clock df = Ok results ->
  batch_in_range df /\ results = scored_rows clock df.
Proof.
  intros Hres.
  assert (batch_in_range df) as Hin.
  { unfold analyze_batch_accounts in Hres.
    destruct (fold_left _ _ _) as [res |] eqn:Hfold; [| done].
    by eapply analyze_rows_Ok. }
  split; [done |].
  rewrite (analyze_batch_accounts_returns _ _ Hin) in Hres.
  by injection Hres.
Qed.

Lemma scored_rows_lookup clock df i :
  scored_rows clock df !! i
  = (fun account => dict_merge account (scored (clock i) account))
      <$> df !! i.
Proof. unfold scored_rows. by rewrite list_lookup_imap. Qed.



(** ** Counting levels *)







(** * Further properties of the engine *)

(** ** Explanations and points go together *)

(** A factor block appends at most one explanation, and always one when it
    adds points. *)
Definition one_note (st : Running) : Prop :=
  (length (explanations st) <= 1)%nat
  /\ (risk_score st > 0 -> length (explanations st) = 1%nat).

Lemma one_note_fresh : one_note fresh.
Proof. split; simpl; [lia | lia]. Qed.

Lemma one_note_flag pts msg : one_note (flag pts msg fresh).
Proof. split; simpl; [lia | done]. Qed.

Ltac one_note_by_branches :=
  cbv zeta;
  repeat match goal with
         | |- context [if ?c then _ else _] => destruct c
         end;
  auto using one_note_fresh, one_note_flag.

Lemma factor_notes_one_each now account :
  one_note (factor_account_age (account_age_days now account) fresh)
  /\ one_note (ratio_outcome account)
  /\ one_note (factor_posting_frequency account fresh)
  /\ one_note (factor_content_repetition account fresh)
  /\ one_note (factor_messaging account fresh)
  /\ one_note (factor_suspicious_links account fresh)
  /\ one_note (factor_network account fresh).
Proof.
  split_and!.
  - unfold factor_account_age. one_note_by_branches.
  - unfold ratio_outcome, factor_follow_ratio.
    destruct (true_div _ _); simpl; one_note_by_branches.
  - unfold factor_posting_frequency. one_note_by_branches.
  - unfold factor_content_repetition. one_note_by_branches.
  - unfold factor_messaging. one_note_by_branches.
  - unfold factor_suspicious_links. one_note_by_branches.
  - unfold factor_network. one_note_by_branches.
Qed.

Lemma positive_signals_length score age account :
  (length (positive_signals score age account) <= 4)%nat
  /\ (score >= 40 -> positive_signals score age account = []).
Proof.
  unfold positive_signals, gated.
  destruct (Z.ltb_spec score 40); [| split; [simpl; lia | done]].
  split; [| lia].
  repeat case_match; simpl; lia.
Qed.

(** The number of factors that added points. *)
Definition factors_fired (now : datetime) (account : AccountRecord) : nat :=
  length (filter (fun pts => pts > 0)
            [age_points now account; ratio_points account;
             frequency_points account; repetition_points account;
             messaging_points account; links_points account;
             network_points account]).

(** X1: in whatever a call returns, the explanations are those of the
    seven factors, in factor order, followed by the positive notes; each
    factor left at most one explanation, and exactly one if it added
    points; the positive notes are at most four, and none when the score
    is 40 or more.  So there are at most eleven explanations, at least as
    many as factors that added points, and a score above 0 never comes
    with an empty list. *)
Theorem explanations_account_for_points now account :
  (ratio_overflows account = false ->
   exists r, calculate_risk_score now account = Ok r)
  /\ (forall r,
        calculate_risk_score now account = Ok r ->
        (exists positive,
            Assessment.explanations r
            = explanations
                (factor_account_age (account_age_days now account) fresh)
              ++ explanations (ratio_outcome account)
              ++ explanations (factor_posting_frequency account fresh)
              ++ explanations (factor_content_repetition account fresh)
              ++ explanations (factor_messaging account fresh)
              ++ explanations (factor_suspicious_links account fresh)
              ++ explanations (factor_network account fresh)
              ++ positive
            /\ (length positive <= 4)%nat
            /\ (Assessment.risk_score r >= 40 -> positive = []))
        /\ (one_note
              (factor_account_age (account_age_days now account) fresh)
            /\ one_note (ratio_outcome account)
            /\ one_note (factor_posting_frequency account fresh)
            /\ one_note (factor_content_repetition account fresh)
            /\ one_note (factor_messaging account fresh)
            /\ one_note (factor_suspicious_links account fresh)
            /\ one_note (factor_network account fresh))
        /\ (length (Assessment.explanations r) <= 11)%nat
        /\ (factors_fired now account
            <= length (Assessment.explanations r))%nat
        /\ (Assessment.risk_score r > 0 ->
            Assessment.explanations r <> [])).
Proof.
  split.
  { intros Hin. rewrite (calculate_risk_score_returns _ _ Hin). eauto. }
  intros r Hr. apply calculate_risk_score_Ok in Hr as [_ ->].
  cbn [scored Assessment.risk_score Assessment.explanations].
  rewrite add_positive_signals_app, length_app.
  destruct (positive_signals_length (final_score now account)
              (account_age_days now account) account) as [Hfour Hnone].
  pose proof (factor_notes_one_each now account) as Hone.
  assert (factors_fired now account
          <= length (negative_explanations now account) <= 7)%nat as Hneg.
  { destruct Hone as ([? ?] & [? ?] & [? ?] & [? ?] & [? ?] & [? ?] & [? ?]).
    unfold factors_fired, negative_explanations, age_points, ratio_points,
      frequency_points, repetition_points, messaging_points, links_points,
      network_points.
    rewrite !length_app, !filter_cons, filter_nil.
    repeat case_decide; cbn [length]; lia. }
  split; [| split; [exact Hone |]]; [| split_and!].
  - eexists. split; [| split; [exact Hfour | exact Hnone]].
    unfold negative_explanations. by rewrite <- !app_assoc.
  - lia.
  - lia.
  - intros Hpos Hnil. apply (f_equal length) in Hnil.
    rewrite length_app in Hnil. simpl in Hnil.
    assert (factors_fired now account > 0)%nat; [| lia].
    unfold final_score in Hpos.
    assert (factor_sum now account > 0) as Hsum by lia.
    unfold factor_sum in Hsum. unfold factors_fired.
    rewrite !filter_cons, filter_nil.
    repeat case_decide; cbn [length]; lia.
Qed.

(** ** How many factors a verdict needs *)

(** X2: no factor carries a verdict alone.  In whatever a call returns, a
    score of 40 or more (MODERATE RISK or HIGH RISK) has points from at
    least two of the seven factors, and a score of 70 or more (HIGH RISK)
    from at least four. *)
Theorem verdict_needs_several_factors now account :
  (ratio_overflows account = false ->
   exists r, calculate_risk_score now account = Ok r)
  /\ (forall r,
        calculate_risk_score now account = Ok r ->
        (Assessment.risk_score r >= 40 ->
         (2 <= factors_fired now account)%nat)
        /\ (Assessment.risk_score r >= 70 ->
            (4 <= factors_fired now account)%nat)).
Proof.
  split.
  { intros Hin. rewrite (calculate_risk_score_returns _ _ Hin). eauto. }
  intros r Hr. apply calculate_risk_score_Ok in Hr as [_ ->].
  cbn [scored Assessment.risk_score].
  unfold final_score, factor_sum, factors_fired.
  destruct (age_points_range now account) as [? _].
  destruct (ratio_points_range account) as [? _].
  destruct (frequency_points_range account) as [? _].
  destruct (repetition_points_range account) as [? _].
  destruct (messaging_points_range account) as [? _].
  destruct (links_points_range account) as [? _].
  destruct (network_points_range account) as [? _].
  rewrite !filter_cons, filter_nil.
  split; intros Hs; repeat case_decide; cbn [length]; lia.
Qed.

(** ** More of a signal never lowers the score *)

Lemma Qgtb_mono x y c : (x <= y)%Q -> Qgtb x c = true -> Qgtb y c = true.
Proof.
  rewrite !Qgtb_gt. intros Hle Hlt. by eapply Qlt_le_trans.
Qed.

Lemma frequency_points_mono a b :
  (posts_per_day a <= posts_per_day b)%Q ->
  frequency_points a <= frequency_points b.
Proof.
  intros Hle. unfold frequency_points, factor_posting_frequency. cbv zeta.
  pose proof (Qgtb_mono _ _ 10 Hle). pose proof (Qgtb_mono _ _ 5 Hle).
  pose proof (Qgtb_mono _ _ 3 Hle).
  destruct (Qgtb (posts_per_day a) 10), (Qgtb (posts_per_day a) 5),
    (Qgtb (posts_per_day a) 3), (Qgtb (posts_per_day b) 10),
    (Qgtb (posts_per_day b) 5), (Qgtb (posts_per_day b) 3);
    simpl; try lia; intuition discriminate.
Qed.

Lemma ratio_points_same a b :
  followers a = followers b -> following a = following b ->
  ratio_points a = ratio_points b.
Proof.
  intros Hfers Hfing.
  unfold ratio_points, ratio_outcome, factor_follow_ratio.
  by rewrite Hfers, Hfing.
Qed.

(** Two accounts, the second with at least as much of every signal. *)
Definition no_less_suspicious (now1 : datetime) (a : AccountRecord)
    (now2 : datetime) (b : AccountRecord) : Prop :=
  followers a = followers b
  /\ following a = following b
  /\ account_age_days now2 b <= account_age_days now1 a
  /\ (posts_per_day a <= posts_per_day b)%Q
  /\ repetitive_content a <= repetitive_content b
  /\ messages_sent_per_day a <= messages_sent_per_day b
  /\ suspicious_links a <= suspicious_links b
  /\ network_flags a <= network_flags b.

Lemma ratio_overflows_same a b :
  followers a = followers b -> following a = following b ->
  ratio_overflows a = ratio_overflows b.
Proof. intros Hfers Hfing. unfold ratio_overflows. by rewrite Hfers, Hfing. Qed.

(** X3: the score is monotone in the signals.  With the same follower and
    following counts, an account that is no older and has at least as many
    posts a day, as much repetitive content, as many messages a day, as
    many suspicious links and as many network flags as another one is
    scored at least as high, whenever the two calls return; and both
    return if the follower/following quotient is in the range of
    floats. *)
Theorem score_is_monotone now1 a now2 b :
  no_less_suspicious now1 a now2 b ->
  (ratio_overflows a = false ->
   exists ra rb,
     calculate_risk_score now1 a = Ok ra
     /\ calculate_risk_score now2 b = Ok rb)
  /\ (forall ra rb,
        calculate_risk_score now1 a = Ok ra ->
        calculate_risk_score now2 b = Ok rb ->
        Assessment.risk_score ra <= Assessment.risk_score rb).
Proof.
  intros (Hfers & Hfing & Hage & Hppd & Hrep & Hmsg & Hlinks & Hnet).
  split.
  { intros Hin.
    rewrite (calculate_risk_score_returns now1 a Hin).
    rewrite (calculate_risk_score_returns now2 b)
      by (by rewrite <- (ratio_overflows_same a b)).
    eauto. }
  intros ra rb Ha Hb.
  apply calculate_risk_score_Ok in Ha as [_ ->].
  apply calculate_risk_score_Ok in Hb as [_ ->].
  cbn [scored Assessment.risk_score]. unfold final_score, factor_sum.
  apply Z.min_le_compat_r.
  pose proof (frequency_points_mono a b Hppd).
  rewrite (ratio_points_same a b Hfers Hfing).
  assert (age_points now1 a <= age_points now2 b).
  { unfold age_points, factor_account_age.
    repeat case_match; simpl; lia. }
  assert (repetition_points a <= repetition_points b).
  { unfold repetition_points, factor_content_repetition. cbv zeta.
    repeat case_match; simpl; lia. }
  assert (messaging_points a <= messaging_points b).
  { unfold messaging_points, factor_messaging. cbv zeta.
    repeat case_match; simpl; lia. }
  assert (links_points a <= links_points b).
  { unfold links_points, factor_suspicious_links. cbv zeta.
    repeat case_match; simpl; lia. }
  assert (network_points a <= network_points b).
  { unfold network_points, factor_network. cbv zeta.
    repeat case_match; simpl; lia. }
  lia.
Qed.

Lemma score_is_monotone_witness :
  exists ra rb,
    calculate_risk_score (timedelta_of_days 400) (follow_profile 50 3000)
    = Ok ra
    /\ calculate_risk_score 1000 (demo_scammer 0) = Ok rb
    /\ Assessment.risk_score ra <= Assessment.risk_score rb.
Proof.
  destruct (score_is_monotone (timedelta_of_days 400)
              (follow_profile 50 3000) 1000 (demo_scammer 0))
    as [Hret Hle].
  { unfold no_less_suspicious.
    repeat split; try reflexivity; vm_compute; discriminate. }
  destruct Hret as (ra & rb & Ha & Hb); [by vm_compute |].
  exists ra, rb. split; [exact Ha |]. split; [exact Hb |].
  exact (Hle ra rb Ha Hb).
Defined.

(** ** The batch, row by row *)

Lemma analyze_rows_overflow clock df :
  forall acc k,
    ~ batch_in_range df ->
    fold_left (analyze_row clock) df (Ok (acc, k)) = Raise OverflowError.
Proof.
  induction df as [| account df IH]; intros acc k Hout.
  - destruct Hout. constructor.
  - cbn [fold_left]. rewrite analyze_row_eq.
    destruct (ratio_overflows account) eqn:Hover.
    + apply analyze_rows_raise.
    + apply IH. intros Htail. apply Hout. by constructor.
Qed.

Lemma analyze_batch_accounts_overflow clock df :
  ~ batch_in_range df ->
  analyze_batch_accounts clock df = Raise OverflowError.
Proof.
  intros Hout. unfold analyze_batch_accounts.
  by rewrite (analyze_rows_overflow clock df [] 0%nat Hout).
Qed.

Lemma batch_in_range_dec df : {batch_in_range df} + {~ batch_in_range df}.
Proof. unfold batch_in_range. apply Forall_dec. intros a. apply _. Defined.

Lemma with_account_id_same account :
  with_account_id (account_id account) account = account.
Proof. by destruct account. Qed.

(** X4: a batch can be analysed in pieces.  Analysing [df1 ++ df2] has
    the outcome of analysing [df1], then [df2] with the clock where the
    first piece left it, and joining the rows: the same rows, or the same
    exception. *)
Theorem analyze_batch_accounts_app clock df1 df2 :
  analyze_batch_accounts clock (df1 ++ df2)
  = (results1 ← analyze_batch_accounts clock df1;
     results2 ← analyze_batch_accounts
                  (fun k => clock (length df1 + k)%nat) df2;
     Ok (results1 ++ results2)).
Proof.
  destruct (batch_in_range_dec df1) as [Hin1 | Hout1].
  - rewrite (analyze_batch_accounts_returns clock df1 Hin1).
    destruct (batch_in_range_dec df2) as [Hin2 | Hout2].
    + rewrite (analyze_batch_accounts_returns _ df2 Hin2).
      rewrite analyze_batch_accounts_returns
        by (by apply Forall_app).
      unfold mbind, result_bind, scored_rows. by rewrite imap_app.
    + rewrite (analyze_batch_accounts_overflow _ df2 Hout2).
      rewrite analyze_batch_accounts_overflow; [done |].
      intros Hin. by apply Forall_app in Hin as [_ Hin2].
  - rewrite (analyze_batch_accounts_overflow clock df1 Hout1).
    rewrite analyze_batch_accounts_overflow; [done |].
    intros Hin. by apply Forall_app in Hin as [Hin1 _].
Qed.

(** X5: the merge keeps the account.  The key [account_id], which the
    result overwrites, gets the value it had: in whatever batch analysis
    returns, the account part of the rows is the input, row for row, and
    each row carries the id of its account in its result.  If a row makes
    the division overflow, the whole batch is lost to [OverflowError]. *)
Theorem analyze_batch_accounts_keeps_accounts clock df :
  (batch_in_range df ->
   exists results, analyze_batch_accounts clock df = Ok results)
  /\ (~ batch_in_range df ->
      analyze_batch_accounts clock df = Raise OverflowError)
  /\ (forall results,
        analyze_batch_accounts clock df = Ok results ->
        map row_account results = df
        /\ map (fun row => Assessment.account_id (row_result row)) results
           = map account_id df).
Proof.
  split; [| split].
  { intros Hin. rewrite (analyze_batch_accounts_returns _ _ Hin). eauto. }
  { apply analyze_batch_accounts_overflow. }
  intros results Hres.
  apply analyze_batch_accounts_Ok in Hres as [_ ->].
  split.
  - apply list_eq. intros i.
    rewrite list_lookup_fmap, scored_rows_lookup.
    destruct (df !! i) as [account |]; [| done]. cbn.
    by rewrite with_account_id_same.
  - apply list_eq. intros i.
    rewrite !list_lookup_fmap, scored_rows_lookup.
    by destruct (df !! i) as [account |].
Qed.
